(** * QuestDB SQL parser: token classification, tree builder and serializer

    A shallow embedding of the parts of the SQL front end that the
    specification's testable properties speak about.

    - [TokenClassification] embeds [src/autocomplete/token-classification.ts]
      (the classification sets, [tokenNameToKeyword], [isIdentifierToken],
      [shouldSkipToken]).
    - [Lexer], [Visitor] and [ToSql] embed the fragments of [lexer.ts],
      [visitor.ts] and [toSql.ts] that [tests/review-proofs.test.ts] quotes
      and exercises.
    - [Autocomplete] embeds the suggestion engine of section 4.5 of the
      specification on top of [TokenClassification]. *)

From Stdlib Require Import ZArith Lia Ascii DecimalString.
From stdpp Require Import base gmap sets list strings.

Local Open Scope string_scope.
Local Open Scope list_scope.

(** ** Strings as JavaScript uses them *)

Module Js.

(** [String.prototype.startsWith]. *)
Fixpoint startsWith (needle hay : string) : bool :=
  match needle, hay with
  | EmptyString, _ => true
  | String _ _, EmptyString => false
  | String a n, String b h => if Ascii.eqb a b then startsWith n h else false
  end.

(** [String.prototype.includes], which is what vitest's [toContain] uses
    on strings. *)
Fixpoint includes (needle hay : string) : bool :=
  startsWith needle hay ||
  match hay with
  | EmptyString => false
  | String _ h => includes needle h
  end.

(** [Array.prototype.join]. *)
Fixpoint join (sep : string) (parts : list string) : string :=
  match parts with
  | [] => ""
  | [p] => p
  | p :: rest => p +:+ sep +:+ join sep rest
  end.

(** Template-literal rendering of an integral [number] of magnitude below
    1e21, which JavaScript prints as plain decimal digits; from 1e21 up it
    prints an exponent form, which is outside this definition. *)
Definition numberToString (n : Z) : string :=
  NilZero.string_of_int (Z.to_int n).

Definition isLower (c : Ascii.ascii) : bool :=
  let n := Ascii.nat_of_ascii c in (97 <=? n)%nat && (n <=? 122)%nat.

Definition isUpper (c : Ascii.ascii) : bool :=
  let n := Ascii.nat_of_ascii c in (65 <=? n)%nat && (n <=? 90)%nat.

Definition isDigit (c : Ascii.ascii) : bool :=
  let n := Ascii.nat_of_ascii c in (48 <=? n)%nat && (n <=? 57)%nat.

Definition toUpperChar (c : Ascii.ascii) : Ascii.ascii :=
  if isLower c then Ascii.ascii_of_nat (Ascii.nat_of_ascii c - 32) else c.

(** [String.prototype.toUpperCase] on ASCII text. *)
Fixpoint toUpperCase (s : string) : string :=
  match s with
  | EmptyString => EmptyString
  | String c r => String (toUpperChar c) (toUpperCase r)
  end.

End Js.

(** ** Token classification for autocomplete
    ([src/autocomplete/token-classification.ts]) *)

Module TokenClassification.

Definition IDENTIFIER_TOKENS : gset string :=
  list_to_set ["Identifier"; "QuotedIdentifier"; "IdentifierKeyword"].

Definition ALWAYS_SUGGEST_KEYWORDS : gset string :=
  list_to_set ["Current"].

Definition EXPRESSION_OPERATORS : gset string :=
  list_to_set
    ["And"; "Or"; "Not"; "Between"; "In"; "Is"; "Like"; "Ilike"; "Within";
     "Union"; "Except"; "Intersect"].

Definition PUNCTUATION_TOKENS : gset string :=
  list_to_set
    ["LParen"; "RParen"; "Comma"; "Semicolon"; "LBracket"; "RBracket"].

Definition SKIP_TOKENS : gset string :=
  list_to_set
    [ (* Punctuation *)
      "LParen"; "RParen"; "Comma"; "Dot"; "Semicolon"; "AtSign";
      "ColonEquals"; "LBracket"; "RBracket";
      (* Comparison operators *)
      "Equals"; "NotEquals"; "LessThan"; "LessThanOrEqual"; "GreaterThan";
      "GreaterThanOrEqual";
      (* Arithmetic operators *)
      "Plus"; "Minus"; "Star"; "Divide"; "Modulo"; "Concat"; "DoubleColon";
      "RegexMatch"; "RegexNotMatch"; "RegexNotEquals";
      (* Bitwise operators *)
      "BitAnd"; "BitXor"; "BitOr";
      (* Variable references *)
      "VariableReference";
      (* Literals *)
      "StringLiteral"; "NumberLiteral"; "LongLiteral"; "DecimalLiteral";
      "DurationLiteral"; "GeohashLiteral"; "GeohashBinaryLiteral"; "Nan";
      (* Whitespace *)
      "WhiteSpace" ].

Definition OPERATOR_MAP : gmap string string :=
  list_to_map
    [ ("Star", "*"); ("Plus", "+"); ("Minus", "-"); ("Divide", "/");
      ("Modulo", "%"); ("Equals", "="); ("NotEquals", "!=");
      ("LessThan", "<"); ("LessThanOrEqual", "<=");
      ("GreaterThan", ">"); ("GreaterThanOrEqual", ">=");
      ("LParen", "("); ("RParen", ")"); ("Comma", ",");
      ("Semicolon", ";") ].

(** [name.replace(/([a-z])([A-Z])/g, "$1 $2")]: a space goes between a
    lower-case letter and the upper-case letter that follows it. *)
Fixpoint splitCamel (s : string) : string :=
  match s with
  | EmptyString => EmptyString
  | String a r =>
      match r with
      | String b _ =>
          if Js.isLower a && Js.isUpper b
          then String a (String " "%char (splitCamel r))
          else String a (splitCamel r)
      | EmptyString => String a EmptyString
      end
  end.

Definition tokenNameToKeyword (name : string) : string :=
  match OPERATOR_MAP !! name with
  | Some op => op
  | None => Js.toUpperCase (splitCamel name)
  end.

Definition shouldSkipToken (tokenName : string) : bool :=
  bool_decide (tokenName ∈ SKIP_TOKENS).

Section IdentifierKeywords.

(** [IDENTIFIER_KEYWORD_NAMES] is imported from [../parser/tokens]. *)
Variable IDENTIFIER_KEYWORD_NAMES : gset string.

Definition IDENTIFIER_KEYWORD_TOKENS : gset string :=
  IDENTIFIER_KEYWORD_NAMES.

Definition isIdentifierToken (tokenName : string) : bool :=
  bool_decide (tokenName ∈ IDENTIFIER_TOKENS)
  || bool_decide (tokenName ∈ IDENTIFIER_KEYWORD_TOKENS).

End IdentifierKeywords.

End TokenClassification.

(** ** Lexer ([lexer.ts]) *)

Module Lexer.

Definition isDigitOrUnderscore (c : Ascii.ascii) : bool :=
  Js.isDigit c || Ascii.eqb c "_"%char.

(** Greedy [X*] for a character class [X]: the longest prefix in the class
    and what follows it. *)
Fixpoint star (cls : Ascii.ascii -> bool) (s : string) : string * string :=
  match s with
  | EmptyString => (EmptyString, EmptyString)
  | String c r =>
      if cls c
      then let '(m, rest) := star cls r in (String c m, rest)
      else (EmptyString, s)
  end.

(** Greedy [\.?]. *)
Definition optDot (s : string) : string * string :=
  match s with
  | String "."%char r => (".", r)
  | _ => ("", s)
  end.

(** Modelled from the spec: [lexer.ts] is missing; this is the first
    alternative of the NumberLiteral pattern, [\d[\d_]*\.?[\d_]*], as
    [tests/review-proofs.test.ts] (#5) quotes it from [lexer.ts:677].
    The result is the token image and the rest of the input; no piece of
    the alternative ever has to give characters back, since nothing
    mandatory follows it.  An input that does not start with a digit is
    left to the alternatives the test does not quote. *)
Definition numberLiteralAlt1 (s : string) : option (string * string) :=
  match s with
  | String c r =>
      if Js.isDigit c then
        let '(ds, r1) := star isDigitOrUnderscore r in
        let '(dot, r2) := optDot r1 in
        let '(fs, r3) := star isDigitOrUnderscore r2 in
        Some (String c (ds +:+ dot +:+ fs), r3)
      else None
  | EmptyString => None
  end.

End Lexer.

(** ** Tree builder ([visitor.ts]) *)

Module Visitor.

(** A Chevrotain CST context: for each token name, the tokens of that
    name that the rule consumed, in order.  A name the rule never
    consumed has no entry, which is what [if (ctx.Name)] tests. *)
Definition recordToken (ctx : gmap string (list string)) (name : string)
  : gmap string (list string) :=
  <[name := (default [] (ctx !! name) ++ [name])%list]> ctx.

Definition ctxOf (consumed : list string) : gmap string (list string) :=
  foldl recordToken ∅ consumed.

Definition present (ctx : gmap string (list string)) (name : string) : bool :=
  bool_decide (is_Some (ctx !! name)).

Inductive FrameMode := rows | range | groups | cumulative.

(** Modelled from the spec: [visitor.ts] is missing; the mode selection of
    [windowFrameClause] follows the description of [visitor.ts:3447] in
    [tests/review-proofs.test.ts] (#2): [ctx.Groups] is tested before the
    final [else] branch that yields cumulative. *)
Definition windowFrameMode (ctx : gmap string (list string)) : FrameMode :=
  if present ctx "Rows" then rows
  else if present ctx "Range" then range
  else if present ctx "Groups" then groups
  else cumulative.

(** The mode the specification asks for: the one the primary frame
    keyword, the first token of the clause, names. *)
Definition specFrameMode (consumed : list string) : option FrameMode :=
  match consumed with
  | "Rows" :: _ => Some rows
  | "Range" :: _ => Some range
  | "Groups" :: _ => Some groups
  | "Cumulative" :: _ => Some cumulative
  | _ => None
  end.

Inductive JoinType := inner | left | right | full | cross | natural | prevailing.

(** Modelled from the spec: [visitor.ts] is missing; the if-else chain of
    the join visitor follows the description of [visitor.ts:627-635] in
    [tests/review-proofs.test.ts] (#15): no case for Natural or
    Prevailing, so the chain falls through and [joinType] stays
    undefined.  The handled keywords are those of the
    specification's Join data model. *)
Definition joinTypeOf (ctx : gmap string (list string)) : option JoinType :=
  if present ctx "Inner" then Some inner
  else if present ctx "Left" then Some left
  else if present ctx "Right" then Some right
  else if present ctx "Full" then Some full
  else if present ctx "Cross" then Some cross
  else None.

(** The join type the specification's Join data model asks for. *)
Definition specJoinType (keyword : string) : option JoinType :=
  if String.eqb keyword "Inner" then Some inner
  else if String.eqb keyword "Left" then Some left
  else if String.eqb keyword "Right" then Some right
  else if String.eqb keyword "Full" then Some full
  else if String.eqb keyword "Cross" then Some cross
  else if String.eqb keyword "Natural" then Some natural
  else if String.eqb keyword "Prevailing" then Some prevailing
  else None.

Record Ttl := mkTtl { ttlValue : Z; ttlUnit : string }.

(** [parseInt] on the leading decimal digits. *)
Definition digitValue (c : Ascii.ascii) : Z :=
  Z.of_nat (Ascii.nat_of_ascii c) - 48.

Fixpoint parseDigits (acc : Z) (s : string) : Z * string :=
  match s with
  | String c r =>
      if Js.isDigit c then parseDigits (10 * acc + digitValue c) r
      else (acc, s)
  | EmptyString => (acc, EmptyString)
  end.

Definition TTL_UNITS : gmap string string :=
  list_to_map
    [ ("h", "HOURS"); ("d", "DAYS"); ("w", "WEEKS"); ("M", "MONTHS");
      ("y", "YEARS") ].

(** Modelled from the spec: [visitor.ts] is missing; [extractTtl] on a
    duration literal follows the description of [visitor.ts:3684-3696] in
    [tests/review-proofs.test.ts] (#19): the unit table has h, d, w, M
    and y only, and the lookup falls back with [?? "DAYS"]. *)
Definition extractTtl (durationImage : string) : Ttl :=
  let '(value, suffix) := parseDigits 0 durationImage in
  mkTtl value (default "DAYS" (TTL_UNITS !! suffix)).

End Visitor.

(** ** Serializer ([toSql.ts]) *)

Module ToSql.

Record QualifiedName := mkQualifiedName { parts : list string }.

Inductive Expression :=
| column (name : QualifiedName)
| binary (operator : string) (left right : Expression)
| paren (inner : Expression).

Record ColumnDefinition :=
  mkColumnDefinition { colName : string; dataType : string }.

Record IndexDefinition := mkIndexDefinition { indexColumn : QualifiedName }.

Record CreateTableStatement := mkCreateTable {
  table : QualifiedName;
  columns : list ColumnDefinition;
  indexes : list IndexDefinition
}.

Record ResumeWalStatement := mkResumeWal {
  fromTransaction : option Z;
  fromTxn : option Z
}.

Inductive Statement :=
| select (items : list Expression)
| createTable (stmt : CreateTableStatement)
| resumeWal (stmt : ResumeWalStatement).

(** Plain names, which need no quoting, joined by dots. *)
Definition qualifiedNameToSql (n : QualifiedName) : string :=
  Js.join "." (parts n).

(** Modelled from the spec: [toSql.ts] is missing; [binaryExprToSql]
    follows the description of [toSql.ts:1472-1476] in
    [tests/review-proofs.test.ts] (#14): it always emits
    [left op right], and parentheses come from ParenExpression nodes
    only. *)
Fixpoint exprToSql (e : Expression) : string :=
  match e with
  | column n => qualifiedNameToSql n
  | binary op l r => exprToSql l +:+ " " +:+ op +:+ " " +:+ exprToSql r
  | paren e' => "(" +:+ exprToSql e' +:+ ")"
  end.

Definition selectToSql (items : list Expression) : string :=
  "SELECT " +:+ Js.join ", " (exprToSql <$> items).

Definition columnDefToSql (c : ColumnDefinition) : string :=
  colName c +:+ " " +:+ dataType c.

Definition indexDefToSql (i : IndexDefinition) : string :=
  "INDEX(" +:+ qualifiedNameToSql (indexColumn i) +:+ ")".

Definition nonEmpty {A} (l : list A) : bool :=
  match l with [] => false | _ => true end.

(** Modelled from the spec: [toSql.ts] is missing; [createTableToSql]
    follows the description of [toSql.ts:551-559] in
    [tests/review-proofs.test.ts] (#13): the parenthesised column list is
    built and closed first, and the index declarations are appended
    after it, each behind a comma. *)
Definition createTableToSql (s : CreateTableStatement) : string :=
  let sql := "CREATE TABLE " +:+ qualifiedNameToSql (table s) in
  let sql :=
    if nonEmpty (columns s)
    then sql +:+ " (" +:+ Js.join ", " (columnDefToSql <$> columns s) +:+ ")"
    else sql in
  if nonEmpty (indexes s)
  then sql +:+ ", " +:+ Js.join ", " (indexDefToSql <$> indexes s)
  else sql.

(** Modelled from the spec: [toSql.ts] is missing; [resumeWalToSql]
    follows [tests/review-proofs.test.ts] (#12): the two clauses sit in
    an if / else-if, [fromTransaction] first. *)
Definition resumeWalToSql (s : ResumeWalStatement) : string :=
  let clause :=
    match fromTransaction s with
    | Some n => ["FROM TRANSACTION " +:+ Js.numberToString n]
    | None =>
        match fromTxn s with
        | Some n => ["FROM TXN " +:+ Js.numberToString n]
        | None => []
        end
    end in
  Js.join " " ("RESUME WAL" :: clause).

Definition toSql (s : Statement) : string :=
  match s with
  | select items => selectToSql items
  | createTable c => createTableToSql c
  | resumeWal r => resumeWalToSql r
  end.

(** The body the specification asks for: columns and indexes inside one
    parenthesis pair. *)
Definition specCreateTableToSql (s : CreateTableStatement) : string :=
  "CREATE TABLE " +:+ qualifiedNameToSql (table s) +:+ " (" +:+
  Js.join ", " ((columnDefToSql <$> columns s) ++ (indexDefToSql <$> indexes s))%list
  +:+ ")".

(** A tree without ParenExpression nodes, over names and operators that
    have no opening parenthesis in them. *)
Fixpoint parenFree (e : Expression) : bool :=
  match e with
  | column n => forallb (λ p, negb (Js.includes "(" p)) (parts n)
  | binary op l r => negb (Js.includes "(" op) && parenFree l && parenFree r
  | paren _ => false
  end.

End ToSql.

(** ** Autocomplete engine (section 4.5 of the specification) *)

Module Autocomplete.

Import TokenClassification.

(** The external catalog collaborator. *)
Record Catalog := mkCatalog {
  listTables : list string;
  listColumns : option string -> list string
}.

(** The ranks of the output order: always-suggest, clause keywords,
    punctuation, deprioritized connectives, identifier-context hints.
    The classification puts no kind at the punctuation rank: the
    punctuation kinds are in the skip set. *)
Inductive Rank :=
| AlwaysSuggested | ClauseKeyword | Punctuation | Connective | IdentifierHint.

#[global] Instance Rank_eq_dec : EqDecision Rank.
Proof. solve_decision. Defined.

(** A suggestion, with the token kind it was produced for. *)
Record Suggestion := mkSuggestion {
  displayText : string;
  insertText : string;
  rank : Rank;
  tokenKind : string
}.

Definition keywordSuggestion (r : Rank) (name : string) : Suggestion :=
  let text := tokenNameToKeyword name in mkSuggestion text text r name.

Definition catalogSuggestion (name ident : string) : Suggestion :=
  mkSuggestion ident ident IdentifierHint name.

(** De-duplication by display text; the first suggestion with a given
    text stays. *)
Fixpoint dedupe (seen : gset string) (l : list Suggestion) : list Suggestion :=
  match l with
  | [] => []
  | s :: rest =>
      if bool_decide (displayText s ∈ seen) then dedupe seen rest
      else s :: dedupe ({[displayText s]} ∪ seen) rest
  end.

Definition ofRank (r : Rank) (l : list Suggestion) : list Suggestion :=
  filter (λ s, rank s = r) l.

Definition ranked (l : list Suggestion) : list Suggestion :=
  ofRank AlwaysSuggested l ++ ofRank ClauseKeyword l ++ ofRank Punctuation l
  ++ ofRank Connective l ++ ofRank IdentifierHint l.

Section Engine.

(** [IDENTIFIER_KEYWORD_NAMES] of [parser/tokens.ts]. *)
Variable IDENTIFIER_KEYWORD_NAMES : gset string.

(** The lenient tokenizer and grammar engine: the token kinds that are
    grammatically valid at the cursor. *)
Variable expectedKinds : string -> nat -> list string.

(** Modelled from the spec: the suggestion engine is missing; this is
    the classification of one expected kind by the fixed table, as
    section 4.5 words it: the always-suggest set is emitted
    unconditionally, the skip set is never surfaced, identifier-producing
    kinds go to the catalog, expression-continuation kinds are
    deprioritized, and the remaining kinds are clause keywords. *)
Definition classify (name : string) : option Rank :=
  if bool_decide (name ∈ ALWAYS_SUGGEST_KEYWORDS) then Some AlwaysSuggested
  else if shouldSkipToken name then None
  else if isIdentifierToken IDENTIFIER_KEYWORD_NAMES name then Some IdentifierHint
  else if bool_decide (name ∈ EXPRESSION_OPERATORS) then Some Connective
  else Some ClauseKeyword.

Definition suggestionsFor (catalog : Catalog) (name : string)
  : list Suggestion :=
  match classify name with
  | None => []
  | Some IdentifierHint =>
      catalogSuggestion name <$> (listTables catalog ++ listColumns catalog None)
  | Some r => [keywordSuggestion r name]
  end.

(** Modelled from the spec: the output of the missing suggestion engine
    for a set of expected kinds, per section 4.5: each kind classified by
    the table, the suggestions put in rank order and de-duplicated by
    display text. *)
Definition buildSuggestions (catalog : Catalog) (expected : list string)
  : list Suggestion :=
  dedupe ∅ (ranked (expected ≫= suggestionsFor catalog)).

(** Modelled from the spec: [suggest(text, cursorOffset, catalog)] of
    the missing suggestion engine, per section 4.5. *)
Definition suggest (text : string) (cursorOffset : nat) (catalog : Catalog)
  : list Suggestion :=
  buildSuggestions catalog (expectedKinds text cursorOffset).

End Engine.

End Autocomplete.

(** ** Token names and keyword texts *)

Module KeywordText.

(** The own properties of [Object.prototype].  [OPERATOR_MAP] is a plain
    object literal, so [OPERATOR_MAP[name]] finds these, inherited, when
    [name] is not one of its own keys. *)
Definition OBJECT_PROTOTYPE_KEYS : gset string :=
  list_to_set
    ["constructor"; "__defineGetter__"; "__defineSetter__"; "hasOwnProperty";
     "__lookupGetter__"; "__lookupSetter__"; "isPrototypeOf";
     "propertyIsEnumerable"; "toString"; "valueOf"; "__proto__";
     "toLocaleString"].

Fixpoint isAscii (s : string) : bool :=
  match s with
  | EmptyString => true
  | String c r => (Ascii.nat_of_ascii c <? 128)%nat && isAscii r
  end.

(** The names on which [tokenNameToKeyword] is embedded exactly: ASCII
    text, where [toUpperCase] is [Js.toUpperCase], that is not a property
    inherited from [Object.prototype], where [OPERATOR_MAP[name]] is the
    lookup in the table. *)
Definition plainName (name : string) : bool :=
  isAscii name && negb (bool_decide (name ∈ OBJECT_PROTOTYPE_KEYS)).

Fixpoint hasLower (s : string) : bool :=
  match s with
  | EmptyString => false
  | String c r => Js.isLower c || hasLower r
  end.

Fixpoint hasSpace (s : string) : bool :=
  match s with
  | EmptyString => false
  | String c r => Ascii.eqb c " " || hasSpace r
  end.

Fixpoint withoutSpaces (s : string) : string :=
  match s with
  | EmptyString => EmptyString
  | String c r =>
      if Ascii.eqb c " " then withoutSpaces r else String c (withoutSpaces r)
  end.

(** Words separated by single spaces: [wordsFrom false s] holds when [s]
    is one or more non-empty words with exactly one space between
    neighbours, and no space at either end. *)
Fixpoint wordsFrom (inWord : bool) (s : string) : bool :=
  match s with
  | EmptyString => inWord
  | String c r =>
      if Ascii.eqb c " " then inWord && wordsFrom false r
      else wordsFrom true r
  end.

End KeywordText.

(** ** Inputs of [tests/review-proofs.test.ts] *)

(** The tokens of
    [CUMULATIVE BETWEEN UNBOUNDED PRECEDING AND CURRENT ROW EXCLUDE GROUPS]. *)
Definition cumulativeExcludeGroups : list string :=
  ["Cumulative"; "Between"; "Unbounded"; "Preceding"; "And"; "Current"; "Row";
   "Exclude"; "Groups"].

Definition col (name : string) : ToSql.Expression :=
  ToSql.column (ToSql.mkQualifiedName [name]).

(** multiply(add(a, b), c), without a ParenExpression. *)
Definition mulOfAdd : ToSql.Expression :=
  ToSql.binary "*" (ToSql.binary "+" (col "a") (col "b")) (col "c").

(** Two columns and one index, the statement of test #13 on table [t]. *)
Definition twoColumnsOneIndex : ToSql.CreateTableStatement :=
  ToSql.mkCreateTable (ToSql.mkQualifiedName ["t"])
    [ToSql.mkColumnDefinition "id" "INT"; ToSql.mkColumnDefinition "name" "STRING"]
    [ToSql.mkIndexDefinition (ToSql.mkQualifiedName ["name"])].

(** The engine after [VALUES (1), ], where an opening parenthesis is the
    only kind the grammar allows. *)
Definition afterValuesComma (_ : string) (_ : nat) : list string := ["LParen"].

Definition emptyCatalog : Autocomplete.Catalog :=
  Autocomplete.mkCatalog [] (λ _, []).

(** The kinds reachable where CURRENT, a clause keyword and a
    parenthesis are all allowed. *)
Definition inFrameBound (_ : string) (_ : nat) : list string :=
  ["Unbounded"; "Current"; "LParen"; "NumberLiteral"].

(** * Properties *)

Import TokenClassification.

(** ** Sanity checks of the embedding *)

Example tokenNameToKeyword_PartitionBy :
  tokenNameToKeyword "PartitionBy" = "PARTITION BY".
Proof. vm_compute. reflexivity. Qed.

Example tokenNameToKeyword_LParen : tokenNameToKeyword "LParen" = "(".
Proof. vm_compute. reflexivity. Qed.

Example shouldSkipToken_Select : shouldSkipToken "Select" = false.
Proof. vm_compute. reflexivity. Qed.

Example numberToString_5 : Js.numberToString 5 = "5".
Proof. reflexivity. Qed.

Example numberToString_0 : Js.numberToString 0 = "0".
Proof. reflexivity. Qed.

Example numberLiteral_fraction :
  Lexer.numberLiteralAlt1 "1_000.25 " = Some ("1_000.25", " ").
Proof. reflexivity. Qed.

Example frame_mode_plain_cumulative :
  Visitor.windowFrameMode (Visitor.ctxOf ["Cumulative"]) = Visitor.cumulative.
Proof. vm_compute. reflexivity. Qed.

Example extractTtl_hours :
  Visitor.extractTtl "12h" = Visitor.mkTtl 12 "HOURS".
Proof. vm_compute. reflexivity. Qed.

Example toSql_paren_node :
  ToSql.exprToSql
    (ToSql.binary "*"
       (ToSql.paren
          (ToSql.binary "+" (ToSql.column (ToSql.mkQualifiedName ["a"]))
             (ToSql.column (ToSql.mkQualifiedName ["b"]))))
       (ToSql.column (ToSql.mkQualifiedName ["c"])))
  = "(a + b) * c".
Proof. reflexivity. Qed.

(** ** Membership in the classification sets *)

Section SetMembership.

Lemma shouldSkipToken_spec (name : string) :
  shouldSkipToken name = true ↔ name ∈ SKIP_TOKENS.
Proof. unfold shouldSkipToken. apply bool_decide_eq_true. Qed.

Lemma elem_of_PUNCTUATION_TOKENS (name : string) :
  name ∈ PUNCTUATION_TOKENS ↔
  name ∈ ["LParen"; "RParen"; "Comma"; "Semicolon"; "LBracket"; "RBracket"].
Proof. unfold PUNCTUATION_TOKENS. apply elem_of_list_to_set. Qed.

Lemma elem_of_ALWAYS_SUGGEST_KEYWORDS (name : string) :
  name ∈ ALWAYS_SUGGEST_KEYWORDS ↔ name = "Current".
Proof.
  unfold ALWAYS_SUGGEST_KEYWORDS. rewrite elem_of_list_to_set.
  rewrite elem_of_cons, elem_of_nil. tauto.
Qed.

Lemma punctuation_subseteq_skip : PUNCTUATION_TOKENS ⊆ SKIP_TOKENS.
Proof.
  intros name Hin. apply elem_of_PUNCTUATION_TOKENS in Hin.
  apply shouldSkipToken_spec.
  repeat (apply elem_of_cons in Hin as [-> | Hin]; [vm_compute; reflexivity |]).
  by apply elem_of_nil in Hin.
Qed.

Lemma always_suggest_not_skipped (name : string) :
  name ∈ ALWAYS_SUGGEST_KEYWORDS → shouldSkipToken name = false.
Proof.
  intros ->%elem_of_ALWAYS_SUGGEST_KEYWORDS. vm_compute. reflexivity.
Qed.

(** A skip token is in none of the classes suggestions are drawn from. *)
Lemma skipped_in_no_other_class (name : string) :
  name ∈ SKIP_TOKENS →
  (name ∉ IDENTIFIER_TOKENS) ∧ (name ∉ ALWAYS_SUGGEST_KEYWORDS)
  ∧ (name ∉ EXPRESSION_OPERATORS).
Proof.
  assert (Hid : IDENTIFIER_TOKENS ## SKIP_TOKENS)
    by (apply (bool_decide_unpack _); vm_compute; exact I).
  assert (Halways : ALWAYS_SUGGEST_KEYWORDS ## SKIP_TOKENS)
    by (apply (bool_decide_unpack _); vm_compute; exact I).
  assert (Hops : EXPRESSION_OPERATORS ## SKIP_TOKENS)
    by (apply (bool_decide_unpack _); vm_compute; exact I).
  intros Hskip. repeat split; intros Hin.
  - exact (Hid name Hin Hskip).
  - exact (Halways name Hin Hskip).
  - exact (Hops name Hin Hskip).
Qed.

End SetMembership.

(** ** Tree builder *)

(** C1: on the frame clause
    [CUMULATIVE BETWEEN UNBOUNDED PRECEDING AND CURRENT ROW EXCLUDE GROUPS]
    the tree builder yields mode groups, where the primary keyword, and the
    claim, say cumulative: the Groups token of the EXCLUDE clause overrides
    the mode. *)
Theorem cumulative_mode_overridden_by_exclude_groups :
  Visitor.windowFrameMode (Visitor.ctxOf cumulativeExcludeGroups) = Visitor.groups
  ∧ Visitor.specFrameMode cumulativeExcludeGroups = Some Visitor.cumulative
  ∧ Visitor.windowFrameMode (Visitor.ctxOf ["Cumulative"]) = Visitor.cumulative.
Proof. repeat split; vm_compute; reflexivity. Qed.

(** The override happens for every clause that consumes a Groups token and
    neither Rows nor Range, whatever its primary keyword. *)
Lemma windowFrameMode_groups (ctx : gmap string (list string)) :
  ctx !! "Rows" = None → ctx !! "Range" = None → is_Some (ctx !! "Groups") →
  Visitor.windowFrameMode ctx = Visitor.groups.
Proof.
  intros Hrows Hrange Hgroups. unfold Visitor.windowFrameMode, Visitor.present.
  rewrite Hrows, Hrange.
  rewrite !(bool_decide_eq_false_2 (is_Some None)) by (intros [? ?]; discriminate).
  by rewrite bool_decide_eq_true_2.
Qed.

(** C3: [TTL 30m] is built as 30 DAYS: the suffix m is not in the unit
    table and the lookup falls back to DAYS instead of failing. *)
Theorem ttl_minutes_becomes_days :
  Visitor.extractTtl "30m" = Visitor.mkTtl 30 "DAYS"
  ∧ Visitor.TTL_UNITS !! "m" = None
  ∧ Visitor.extractTtl "30d" = Visitor.mkTtl 30 "DAYS".
Proof. repeat split; vm_compute; reflexivity. Qed.

(** Every suffix outside the table is built as DAYS. *)
Lemma extractTtl_unknown_suffix (digits suffix : string) (value : Z) :
  Visitor.parseDigits 0 digits = (value, suffix) →
  Visitor.TTL_UNITS !! suffix = None →
  Visitor.extractTtl digits = Visitor.mkTtl value "DAYS".
Proof.
  intros Hparse Hunit. unfold Visitor.extractTtl. by rewrite Hparse, Hunit.
Qed.

(** C5: a join introduced by NATURAL or by PREVAILING is built with
    [joinType] absent, where the Join data model asks for natural and
    prevailing. *)
Theorem natural_join_type_dropped :
  Visitor.joinTypeOf (Visitor.ctxOf ["Natural"; "Join"]) = None
  ∧ Visitor.joinTypeOf (Visitor.ctxOf ["Prevailing"; "Join"]) = None
  ∧ Visitor.specJoinType "Natural" = Some Visitor.natural
  ∧ Visitor.joinTypeOf (Visitor.ctxOf ["Left"; "Join"]) = Some Visitor.left.
Proof. repeat split; vm_compute; reflexivity. Qed.

(** No keyword outside the five handled ones gives a join type. *)
Lemma joinTypeOf_unhandled (ctx : gmap string (list string)) :
  ctx !! "Inner" = None → ctx !! "Left" = None → ctx !! "Right" = None →
  ctx !! "Full" = None → ctx !! "Cross" = None →
  Visitor.joinTypeOf ctx = None.
Proof.
  intros Hinner Hleft Hright Hfull Hcross.
  unfold Visitor.joinTypeOf, Visitor.present.
  rewrite Hinner, Hleft, Hright, Hfull, Hcross.
  rewrite !(bool_decide_eq_false_2 (is_Some None)) by (intros [? ?]; discriminate).
  reflexivity.
Qed.

(** ** Lexer *)

(** C7: the NumberLiteral pattern folds a bare trailing dot into the
    literal: on ["1."] it matches the whole input, image ["1."], and on
    ["1.x"] it takes the dot and leaves [x]. *)
Theorem number_literal_takes_trailing_dot :
  Lexer.numberLiteralAlt1 "1." = Some ("1.", "")
  ∧ Lexer.numberLiteralAlt1 "1.x" = Some ("1.", "x").
Proof. split; reflexivity. Qed.

(** The dot is taken after any run of digits, whatever follows. *)
Lemma numberLiteral_dot_always_taken (c : Ascii.ascii) (rest : string) :
  Js.isDigit c = true →
  Lexer.star Lexer.isDigitOrUnderscore rest = ("", rest) →
  Lexer.numberLiteralAlt1 (String c (String "." rest)) = Some (String c ".", rest).
Proof.
  intros Hc Hrest. unfold Lexer.numberLiteralAlt1. rewrite Hc.
  assert (Hdot : Lexer.isDigitOrUnderscore "."%char = false) by reflexivity.
  cbn [Lexer.star]. rewrite Hdot. cbn [Lexer.optDot]. rewrite Hrest.
  reflexivity.
Qed.

(** ** Serializer *)

(** C2: multiply(add(a, b), c) is serialized as [a + b * c]; the
    parentheses the tree shape calls for are not emitted. *)
Theorem binary_drops_parentheses :
  ToSql.exprToSql mulOfAdd = "a + b * c"
  ∧ Js.includes "a + b * c" (ToSql.toSql (ToSql.select [mulOfAdd])) = true
  ∧ Js.includes "(a + b)" (ToSql.toSql (ToSql.select [mulOfAdd])) = false.
Proof. repeat split; vm_compute; reflexivity. Qed.

Example mulOfAdd_parenFree : ToSql.parenFree mulOfAdd = true.
Proof. reflexivity. Qed.

(** Whatever the operands, a sum under a product is printed bare. *)
Lemma exprToSql_mul_of_add (a b c : ToSql.Expression) :
  ToSql.exprToSql (ToSql.binary "*" (ToSql.binary "+" a b) c)
  = (ToSql.exprToSql a +:+ " + " +:+ ToSql.exprToSql b) +:+ " * "
    +:+ ToSql.exprToSql c.
Proof. reflexivity. Qed.

Section Parentheses.

Lemma includes_char_append (c : Ascii.ascii) (a b : string) :
  Js.includes (String c "") (a +:+ b)
  = Js.includes (String c "") a || Js.includes (String c "") b.
Proof.
  induction a as [| x a IH].
  - destruct b; reflexivity.
  - change (String x a +:+ b) with (String x (a +:+ b)).
    cbn [Js.includes Js.startsWith]. rewrite IH.
    destruct (Ascii.eqb c x); [reflexivity |]. cbn [orb]. reflexivity.
Qed.

Lemma includes_char_join (c sep : Ascii.ascii) (l : list string) :
  Js.includes (String c "") (String sep "") = false →
  forallb (λ p, negb (Js.includes (String c "") p)) l = true →
  Js.includes (String c "") (Js.join (String sep "") l) = false.
Proof.
  intros Hsep. induction l as [| p l IH]; [reflexivity |].
  cbn [forallb]. intros [Hp Hl]%andb_true_iff. apply negb_true_iff in Hp.
  destruct l as [| q l]; [exact Hp |].
  change (Js.join (String sep "") (p :: q :: l))
    with (p +:+ String sep "" +:+ Js.join (String sep "") (q :: l)).
  rewrite !includes_char_append, Hp, Hsep, (IH Hl). reflexivity.
Qed.

(** Without a ParenExpression node no parenthesis is printed, whatever the
    nesting of the operators. *)
Lemma exprToSql_no_parentheses (e : ToSql.Expression) :
  ToSql.parenFree e = true → Js.includes "(" (ToSql.exprToSql e) = false.
Proof.
  induction e as [n | op l IHl r IHr | e IH]; cbn [ToSql.parenFree ToSql.exprToSql].
  - apply includes_char_join. reflexivity.
  - intros [[Hop Hl]%andb_true_iff Hr]%andb_true_iff.
    apply negb_true_iff in Hop.
    rewrite !includes_char_append, (IHl Hl), (IHr Hr), Hop. reflexivity.
  - discriminate.
Qed.

End Parentheses.

(** For every statement with columns and indexes, the index declarations
    follow the closing parenthesis of the column list. *)
Lemma createTableToSql_shape (name : ToSql.QualifiedName)
    (c : ToSql.ColumnDefinition) (cs : list ToSql.ColumnDefinition)
    (i : ToSql.IndexDefinition) (more : list ToSql.IndexDefinition) :
  ToSql.createTableToSql (ToSql.mkCreateTable name (c :: cs) (i :: more))
  = (("CREATE TABLE " +:+ ToSql.qualifiedNameToSql name) +:+ " (" +:+
     Js.join ", " (ToSql.columnDefToSql <$> c :: cs) +:+ ")")
    +:+ ", " +:+ Js.join ", " (ToSql.indexDefToSql <$> i :: more).
Proof. reflexivity. Qed.

(** C4: two columns and one index are serialized as
    [CREATE TABLE t (id INT, name STRING), INDEX(name)]: the index
    declaration comes after the closing parenthesis of the column list,
    not inside it. *)
Theorem create_table_index_outside_parentheses :
  ToSql.toSql (ToSql.createTable twoColumnsOneIndex)
  = "CREATE TABLE t (id INT, name STRING), INDEX(name)"
  ∧ ToSql.specCreateTableToSql twoColumnsOneIndex
    = "CREATE TABLE t (id INT, name STRING, INDEX(name))"
  ∧ Js.includes "), INDEX(" (ToSql.toSql (ToSql.createTable twoColumnsOneIndex)) = true
  ∧ Js.includes ", INDEX(name))" (ToSql.toSql (ToSql.createTable twoColumnsOneIndex))
    = false.
Proof. repeat split; vm_compute; reflexivity. Qed.

(** *** WAL resume *)

Section DecimalImages.

(** The image of a number has no [F] in it, so no clause keyword can
    start inside it. *)
Lemma includes_uint_image (needle : string) (d : Decimal.uint) :
  Js.startsWith needle "" = false →
  (∀ c rest, Js.isDigit c = true → Js.startsWith needle (String c rest) = false) →
  Js.includes needle (NilEmpty.string_of_uint d) = false.
Proof.
  intros Hnil Hdigit.
  induction d as [| d IH | d IH | d IH | d IH | d IH | d IH | d IH | d IH
                  | d IH | d IH];
    cbn [NilEmpty.string_of_uint Js.includes];
    rewrite ?Hnil, ?IH, ?Hdigit by reflexivity; reflexivity.
Qed.

Lemma startsWith_FROM_other (c : Ascii.ascii) (rest tail : string) :
  Ascii.eqb "F" c = false →
  Js.startsWith (String "F" tail) (String c rest) = false.
Proof. intros Hc. cbn [Js.startsWith]. by rewrite Hc. Qed.

Lemma isDigit_not_F (c : Ascii.ascii) :
  Js.isDigit c = true → Ascii.eqb "F" c = false.
Proof.
  intros Hc. destruct (Ascii.eqb_spec "F" c) as [<- |]; [| reflexivity].
  discriminate Hc.
Qed.

Lemma includes_FROM_TXN_number (n : Z) :
  Js.includes "FROM TXN" (Js.numberToString n) = false.
Proof.
  assert (Huint : ∀ d, Js.includes "FROM TXN" (NilEmpty.string_of_uint d) = false).
  { intros d. apply includes_uint_image; [reflexivity |].
    intros c rest Hc. apply startsWith_FROM_other, isDigit_not_F, Hc. }
  assert (Hzero : ∀ d, Js.includes "FROM TXN" (NilZero.string_of_uint d) = false).
  { intros d. destruct d; try apply Huint. reflexivity. }
  unfold Js.numberToString, NilZero.string_of_int.
  destruct (Z.to_int n) as [d | d]; [apply Hzero |].
  cbn [Js.includes Js.startsWith]. rewrite Hzero. reflexivity.
Qed.

End DecimalImages.

(** C9: a WAL-resume statement with both [fromTransaction] and [fromTxn]
    set is serialized with the FROM TRANSACTION clause alone:
    [fromTransaction] has precedence, and FROM TXN is not in the output. *)
Theorem resume_wal_emits_one_clause (transaction txn : Z) :
  let sql :=
    ToSql.toSql (ToSql.resumeWal (ToSql.mkResumeWal (Some transaction) (Some txn))) in
  sql = "RESUME WAL FROM TRANSACTION " +:+ Js.numberToString transaction
  ∧ Js.includes "FROM TRANSACTION" sql = true
  ∧ Js.includes "FROM TXN" sql = false.
Proof.
  cbn zeta. unfold ToSql.toSql, ToSql.resumeWalToSql.
  cbn [ToSql.fromTransaction ToSql.fromTxn Js.join].
  pose proof (includes_FROM_TXN_number transaction) as Himage.
  revert Himage. generalize (Js.numberToString transaction). intros image Himage.
  split; [reflexivity | split].
  - reflexivity.
  - cbn. exact Himage.
Qed.

Example resume_wal_5_10 :
  ToSql.toSql (ToSql.resumeWal (ToSql.mkResumeWal (Some 5%Z) (Some 10%Z)))
  = "RESUME WAL FROM TRANSACTION 5".
Proof. reflexivity. Qed.

Example resume_wal_txn_only :
  ToSql.toSql (ToSql.resumeWal (ToSql.mkResumeWal None (Some 10%Z)))
  = "RESUME WAL FROM TXN 10".
Proof. reflexivity. Qed.

(** ** Autocomplete engine *)

Section Suggestions.

Import Autocomplete.

Variable IDENTIFIER_KEYWORD_NAMES : gset string.
Variable expectedKinds : string -> nat -> list string.

Abbreviation classify := (classify IDENTIFIER_KEYWORD_NAMES).
Abbreviation suggestionsFor := (suggestionsFor IDENTIFIER_KEYWORD_NAMES).
Abbreviation buildSuggestions := (buildSuggestions IDENTIFIER_KEYWORD_NAMES).
Abbreviation suggest := (suggest IDENTIFIER_KEYWORD_NAMES expectedKinds).



Lemma classify_never_punctuation (name : string) :
  classify name ≠ Some Punctuation.
Proof.
  unfold Autocomplete.classify.
  repeat match goal with |- context [if ?b then _ else _] => destruct b end;
    discriminate.
Qed.

(** The classification gives a punctuation kind no suggestion. *)
Lemma classify_punctuation (name : string) :
  name ∈ PUNCTUATION_TOKENS → classify name = None.
Proof.
  intros Hpunct. unfold Autocomplete.classify.
  case_bool_decide as Halways.
  - apply always_suggest_not_skipped in Halways.
    apply punctuation_subseteq_skip, shouldSkipToken_spec in Hpunct. congruence.
  - apply punctuation_subseteq_skip, shouldSkipToken_spec in Hpunct.
    by rewrite Hpunct.
Qed.

Lemma suggestionsFor_elem_of (catalog : Catalog) (name : string) (s : Suggestion) :
  s ∈ suggestionsFor catalog name →
  tokenKind s = name ∧ classify name = Some (rank s).
Proof.
  unfold Autocomplete.suggestionsFor.
  destruct (classify name) as [r |] eqn:Hclass; [| by intros ?%elem_of_nil].
  destruct r;
    try (intros ->%list_elem_of_singleton; split; reflexivity).
  intros (ident & -> & _)%list_elem_of_fmap. split; reflexivity.
Qed.

Lemma dedupe_elem_of (seen : gset string) (l : list Suggestion) (s : Suggestion) :
  s ∈ dedupe seen l → s ∈ l.
Proof.
  revert seen. induction l as [| y l IH]; intros seen; cbn [dedupe].
  - intros ?. assumption.
  - case_bool_decide.
    + intros ?%IH. by apply list_elem_of_further.
    + intros [-> | ?%IH]%elem_of_cons.
      * apply list_elem_of_here.
      * by apply list_elem_of_further.
Qed.


Lemma ranked_elem_of (l : list Suggestion) (s : Suggestion) :
  s ∈ ranked l ↔ s ∈ l.
Proof.
  unfold ranked, ofRank. rewrite !elem_of_app, !list_elem_of_filter.
  split; [intuition idtac |].
  intros Hin. destruct (rank s) eqn:Hrank; intuition congruence.
Qed.

Lemma buildSuggestions_elem_of (catalog : Catalog) (expected : list string)
    (s : Suggestion) :
  s ∈ buildSuggestions catalog expected →
  tokenKind s ∈ expected ∧ classify (tokenKind s) = Some (rank s).
Proof.
  unfold Autocomplete.buildSuggestions.
  intros Hin%dedupe_elem_of. apply (proj1 (ranked_elem_of _ _)) in Hin.
  apply list_elem_of_bind in Hin as (name & Hs & Hname).
  apply suggestionsFor_elem_of in Hs as [-> Hclass]. split; assumption.
Qed.


(** No suggestion is produced for a punctuation kind. *)
Lemma buildSuggestions_no_punctuation (catalog : Catalog)
    (expected : list string) (s : Suggestion) :
  s ∈ buildSuggestions catalog expected → tokenKind s ∉ PUNCTUATION_TOKENS.
Proof.
  intros [_ Hclass]%buildSuggestions_elem_of Hpunct.
  rewrite (classify_punctuation _ Hpunct) in Hclass. discriminate Hclass.
Qed.


End Suggestions.


(** C10: every kind of [PUNCTUATION_TOKENS] is a member of [SKIP_TOKENS]
    and [shouldSkipToken] is true of it; it is in none of the classes
    that the classification draws suggestions from, so the classification
    gives it no suggestion and no suggestion of [suggest] has that kind:
    the ordinary classification never surfaces punctuation. *)
Theorem punctuation_is_skipped (kind : string) :
  kind ∈ PUNCTUATION_TOKENS →
  kind ∈ SKIP_TOKENS ∧ shouldSkipToken kind = true
  ∧ (kind ∉ IDENTIFIER_TOKENS) ∧ (kind ∉ ALWAYS_SUGGEST_KEYWORDS)
  ∧ (kind ∉ EXPRESSION_OPERATORS)
  ∧ (∀ keywords, Autocomplete.classify keywords kind = None)
  ∧ (∀ keywords catalog, Autocomplete.suggestionsFor keywords catalog kind = [])
  ∧ (∀ keywords expectedKinds text cursorOffset catalog s,
       s ∈ Autocomplete.suggest keywords expectedKinds text cursorOffset catalog →
       Autocomplete.tokenKind s ≠ kind).
Proof.
  intros Hpunct. pose proof (punctuation_subseteq_skip kind Hpunct) as Hskip.
  split; [exact Hskip |]. split; [by apply shouldSkipToken_spec |].
  destruct (skipped_in_no_other_class kind Hskip) as (Hid & Halways & Hops).
  split; [exact Hid |]. split; [exact Halways |]. split; [exact Hops |].
  split; [intros keywords; by apply classify_punctuation |].
  split.
  - intros keywords catalog. unfold Autocomplete.suggestionsFor.
    by rewrite (classify_punctuation keywords kind Hpunct).
  - intros keywords expectedKinds text cursorOffset catalog s Hs Hkind.
    apply (buildSuggestions_no_punctuation keywords catalog _ s Hs).
    by rewrite Hkind.
Qed.

Lemma punctuation_is_skipped_witness :
  "LParen" ∈ PUNCTUATION_TOKENS
  ∧ shouldSkipToken "LParen" = true
  ∧ Autocomplete.classify ∅ "LParen" = None
  ∧ Autocomplete.suggest ∅ afterValuesComma "VALUES (1), " 12%nat emptyCatalog = [].
Proof.
  assert (Hpunct : "LParen" ∈ PUNCTUATION_TOKENS)
    by (apply elem_of_PUNCTUATION_TOKENS; apply list_elem_of_here).
  destruct (punctuation_is_skipped "LParen" Hpunct)
    as (_ & Hskip & _ & _ & _ & Hclass & _ & _).
  split; [exact Hpunct | split; [exact Hskip | split; [exact (Hclass ∅) |]]].
  vm_compute. reflexivity.
Defined.

Example suggest_in_frame_bound :
  Autocomplete.displayText
    <$> Autocomplete.suggest ∅ inFrameBound "ROWS BETWEEN " 13%nat emptyCatalog
  = ["CURRENT"; "UNBOUNDED"].
Proof. vm_compute. reflexivity. Qed.

(** * Further properties of [token-classification.ts] *)

Section Characters.

Import KeywordText.

Lemma toUpperChar_not_lower (c : Ascii.ascii) :
  Js.isLower (Js.toUpperChar c) = false.
Proof. destruct c as [[] [] [] [] [] [] [] []]; reflexivity. Qed.

Lemma toUpperChar_fixed (c : Ascii.ascii) :
  Js.isLower c = false → Js.toUpperChar c = c.
Proof. intros Hc. unfold Js.toUpperChar. by rewrite Hc. Qed.

Lemma toUpperChar_space (c : Ascii.ascii) :
  Ascii.eqb (Js.toUpperChar c) " " = Ascii.eqb c " ".
Proof. destruct c as [[] [] [] [] [] [] [] []]; reflexivity. Qed.

Lemma toUpperChar_ascii (c : Ascii.ascii) :
  (Ascii.nat_of_ascii c <? 128)%nat = true →
  (Ascii.nat_of_ascii (Js.toUpperChar c) <? 128)%nat = true.
Proof. destruct c as [[] [] [] [] [] [] [] []]; intros H; (exact H || reflexivity). Qed.

Lemma lower_upper_exclusive (c : Ascii.ascii) :
  Js.isLower c = true → Js.isUpper c = false.
Proof. destruct c as [[] [] [] [] [] [] [] []]; (discriminate || reflexivity). Qed.

Lemma lower_not_space (c : Ascii.ascii) :
  Js.isLower c = true → Ascii.eqb c " " = false.
Proof. destruct c as [[] [] [] [] [] [] [] []]; (discriminate || reflexivity). Qed.

End Characters.

(** Case analysis on an entry of [OPERATOR_MAP]. *)
Ltac operator_entries H tac :=
  unfold OPERATOR_MAP in H; apply elem_of_list_to_map_2 in H;
  repeat (apply elem_of_cons in H as [H | H];
          [injection H as -> ->; tac |]);
  by apply elem_of_nil in H.

Section KeywordTexts.

Import KeywordText.

Lemma operator_is_skipped (name symbol : string) :
  OPERATOR_MAP !! name = Some symbol → shouldSkipToken name = true.
Proof. intros H. operator_entries H ltac:(vm_compute; reflexivity). Qed.

Lemma operator_name_has_lower (name symbol : string) :
  OPERATOR_MAP !! name = Some symbol → hasLower name = true.
Proof. intros H. operator_entries H ltac:(reflexivity). Qed.

Lemma operator_symbol_shape (name symbol : string) :
  OPERATOR_MAP !! name = Some symbol →
  hasLower symbol = false ∧ wordsFrom false symbol = true
  ∧ isAscii symbol = true ∧ symbol ∉ OBJECT_PROTOTYPE_KEYS.
Proof.
  intros H.
  operator_entries H
    ltac:(repeat split; try reflexivity;
          apply (bool_decide_eq_false_1 _); vm_compute; reflexivity).
Qed.

Lemma not_skipped_not_operator (name : string) :
  shouldSkipToken name = false → OPERATOR_MAP !! name = None.
Proof.
  intros Hskip. destruct (OPERATOR_MAP !! name) as [symbol |] eqn:Hop;
    [| reflexivity].
  apply operator_is_skipped in Hop. congruence.
Qed.

Lemma hasLower_toUpperCase (s : string) : hasLower (Js.toUpperCase s) = false.
Proof.
  induction s as [| c s IH]; [reflexivity |].
  cbn [Js.toUpperCase hasLower]. by rewrite toUpperChar_not_lower, IH.
Qed.

Lemma toUpperCase_no_lower (s : string) :
  hasLower s = false → Js.toUpperCase s = s.
Proof.
  induction s as [| c s IH]; [reflexivity |].
  cbn [Js.toUpperCase hasLower]. intros [Hc Hs]%orb_false_iff.
  by rewrite (toUpperChar_fixed c Hc), (IH Hs).
Qed.

Lemma splitCamel_no_lower (s : string) : hasLower s = false → splitCamel s = s.
Proof.
  induction s as [| c s IH]; [reflexivity |].
  cbn [hasLower]. intros [Hc Hs]%orb_false_iff.
  cbn [splitCamel]. rewrite Hc, (IH Hs). cbn [andb]. by destruct s.
Qed.

Lemma no_lower_not_operator (s : string) :
  hasLower s = false → OPERATOR_MAP !! s = None.
Proof.
  intros Hs. destruct (OPERATOR_MAP !! s) as [symbol |] eqn:Hop; [| reflexivity].
  apply operator_name_has_lower in Hop. congruence.
Qed.

Lemma no_lower_not_inherited (s : string) :
  hasLower s = false → s ∉ OBJECT_PROTOTYPE_KEYS.
Proof.
  intros Hs Hin. unfold OBJECT_PROTOTYPE_KEYS in Hin.
  apply elem_of_list_to_set in Hin.
  repeat (apply elem_of_cons in Hin as [-> | Hin]; [discriminate Hs |]).
  by apply elem_of_nil in Hin.
Qed.

(** A text without lower-case letters is its own keyword text. *)
Lemma tokenNameToKeyword_no_lower (s : string) :
  hasLower s = false → tokenNameToKeyword s = s.
Proof.
  intros Hs. unfold tokenNameToKeyword.
  by rewrite (no_lower_not_operator s Hs), (splitCamel_no_lower s Hs),
    (toUpperCase_no_lower s Hs).
Qed.

Lemma isAscii_toUpperCase (s : string) :
  isAscii s = true → isAscii (Js.toUpperCase s) = true.
Proof.
  induction s as [| c s IH]; [reflexivity |].
  cbn [Js.toUpperCase isAscii]. intros [Hc Hs]%andb_true_iff.
  by rewrite (toUpperChar_ascii c Hc), (IH Hs).
Qed.

Lemma isAscii_splitCamel (s : string) :
  isAscii s = true → isAscii (splitCamel s) = true.
Proof.
  induction s as [| c s IH]; [reflexivity |].
  cbn [isAscii]. intros [Hc Hs]%andb_true_iff.
  cbn [splitCamel]. destruct s as [| d s]; [cbn [isAscii]; by rewrite Hc |].
  destruct (Js.isLower c && Js.isUpper d);
    cbn [isAscii]; rewrite Hc; cbn [andb]; try (change (Ascii.nat_of_ascii " " <? 128)%nat with true; cbn [andb]);
    exact (IH Hs).
Qed.

Lemma withoutSpaces_toUpperCase (s : string) :
  withoutSpaces (Js.toUpperCase s) = Js.toUpperCase (withoutSpaces s).
Proof.
  induction s as [| c s IH]; [reflexivity |].
  cbn [Js.toUpperCase withoutSpaces]. rewrite toUpperChar_space.
  destruct (Ascii.eqb c " "); [exact IH |].
  cbn [Js.toUpperCase]. by rewrite IH.
Qed.

Lemma withoutSpaces_splitCamel (s : string) :
  withoutSpaces (splitCamel s) = withoutSpaces s.
Proof.
  induction s as [| c s IH]; [reflexivity |].
  cbn [splitCamel]. destruct s as [| d s]; [reflexivity |].
  destruct (Js.isLower c && Js.isUpper d); cbn [withoutSpaces] in *.
  - change (Ascii.eqb " " " ") with true. cbn iota. by rewrite IH.
  - by rewrite IH.
Qed.

Lemma length_splitCamel (s : string) :
  (String.length s ≤ String.length (splitCamel s))%nat.
Proof.
  induction s as [| c s IH]; [reflexivity |].
  cbn [splitCamel]. destruct s as [| d s]; [reflexivity |].
  destruct (Js.isLower c && Js.isUpper d); cbn [String.length] in *; lia.
Qed.

Lemma length_toUpperCase (s : string) :
  String.length (Js.toUpperCase s) = String.length s.
Proof.
  induction s as [| c s IH]; [reflexivity |].
  cbn [Js.toUpperCase String.length]. by rewrite IH.
Qed.

Lemma withoutSpaces_no_space (s : string) :
  hasSpace s = false → withoutSpaces s = s.
Proof.
  induction s as [| c s IH]; [reflexivity |].
  cbn [hasSpace withoutSpaces]. intros [Hc Hs]%orb_false_iff.
  by rewrite Hc, (IH Hs).
Qed.

(** The camel-case conversion of a text without spaces is a run of words
    with single spaces between them. *)
Lemma wordsFrom_camel (s : string) (inWord : bool) :
  hasSpace s = false → s ≠ "" →
  wordsFrom inWord (Js.toUpperCase (splitCamel s)) = true.
Proof.
  revert inWord. induction s as [| c s IH]; intros inWord Hspace Hne;
    [contradiction |].
  cbn [hasSpace] in Hspace. apply orb_false_iff in Hspace as [Hc Hs].
  cbn [splitCamel]. destruct s as [| d s].
  - cbn [Js.toUpperCase wordsFrom]. by rewrite toUpperChar_space, Hc.
  - assert (Hrest : ∀ b, wordsFrom b (Js.toUpperCase (splitCamel (String d s))) = true)
      by (intros b; apply IH; [exact Hs | discriminate]).
    destruct (Js.isLower c && Js.isUpper d);
      cbn [Js.toUpperCase wordsFrom]; rewrite toUpperChar_space, Hc.
    + change (Ascii.eqb (Js.toUpperChar " ") " ") with true. cbn iota.
      rewrite Hrest. reflexivity.
    + apply Hrest.
Qed.

End KeywordTexts.

(** ** Keyword texts *)

Section KeywordTextProperties.

Import KeywordText.

(** X1: every token name with a symbol in [OPERATOR_MAP] is in
    [SKIP_TOKENS]; so for a token that is not skipped the table has no
    entry and [tokenNameToKeyword] is the camel-case conversion. *)
Theorem unskipped_keyword_is_camel_case (name : string) :
  plainName name = true → shouldSkipToken name = false →
  OPERATOR_MAP !! name = None
  ∧ tokenNameToKeyword name = Js.toUpperCase (splitCamel name).
Proof.
  intros _ Hskip. pose proof (not_skipped_not_operator name Hskip) as Hop.
  split; [exact Hop |]. unfold tokenNameToKeyword. by rewrite Hop.
Qed.

Lemma unskipped_keyword_is_camel_case_witness :
  OPERATOR_MAP !! "LatestOn" = None
  ∧ tokenNameToKeyword "LatestOn" = Js.toUpperCase (splitCamel "LatestOn").
Proof.
  apply (unskipped_keyword_is_camel_case "LatestOn"); vm_compute; reflexivity.
Defined.

(** X2: the text [tokenNameToKeyword] returns has no lower-case letter in
    it, for operator names and keyword names alike. *)
Theorem keyword_has_no_lower_case (name : string) :
  plainName name = true → hasLower (tokenNameToKeyword name) = false.
Proof.
  intros _. unfold tokenNameToKeyword.
  destruct (OPERATOR_MAP !! name) as [symbol |] eqn:Hop.
  - apply (operator_symbol_shape name symbol Hop).
  - apply hasLower_toUpperCase.
Qed.

Lemma keyword_has_no_lower_case_witness :
  hasLower (tokenNameToKeyword "GreaterThanOrEqual") = false
  ∧ hasLower (tokenNameToKeyword "PartitionBy") = false.
Proof.
  split; apply keyword_has_no_lower_case; vm_compute; reflexivity.
Defined.

Lemma plainName_keyword (name : string) :
  plainName name = true → plainName (tokenNameToKeyword name) = true.
Proof.
  unfold plainName. intros [Hascii _]%andb_true_iff.
  unfold tokenNameToKeyword.
  destruct (OPERATOR_MAP !! name) as [symbol |] eqn:Hop.
  - destruct (operator_symbol_shape name symbol Hop) as (_ & _ & Hsym & Hown).
    rewrite Hsym. cbn [andb]. apply negb_true_iff. by apply bool_decide_eq_false_2.
  - rewrite (isAscii_toUpperCase _ (isAscii_splitCamel _ Hascii)). cbn [andb].
    apply negb_true_iff, bool_decide_eq_false_2, no_lower_not_inherited,
      hasLower_toUpperCase.
Qed.

(** X3: [tokenNameToKeyword] is idempotent: a keyword text is again a plain
    name, and converting it once more changes nothing. *)
Theorem tokenNameToKeyword_idempotent (name : string) :
  plainName name = true →
  plainName (tokenNameToKeyword name) = true
  ∧ tokenNameToKeyword (tokenNameToKeyword name) = tokenNameToKeyword name.
Proof.
  intros Hplain. split; [by apply plainName_keyword |].
  apply tokenNameToKeyword_no_lower. unfold tokenNameToKeyword.
  destruct (OPERATOR_MAP !! name) as [symbol |] eqn:Hop.
  - apply (operator_symbol_shape name symbol Hop).
  - apply hasLower_toUpperCase.
Qed.

Lemma tokenNameToKeyword_idempotent_witness :
  plainName (tokenNameToKeyword "LessThanOrEqual") = true
  ∧ tokenNameToKeyword (tokenNameToKeyword "LessThanOrEqual")
    = tokenNameToKeyword "LessThanOrEqual".
Proof.
  apply (tokenNameToKeyword_idempotent "LessThanOrEqual"). vm_compute. reflexivity.
Defined.

(** X4: for a token that is not skipped, the keyword text is the name in
    upper case with spaces put in and nothing else changed: without its
    spaces it is the upper-cased name without spaces, and it is never
    shorter than the name. *)
Theorem keyword_keeps_the_letters (name : string) :
  plainName name = true → shouldSkipToken name = false →
  withoutSpaces (tokenNameToKeyword name) = Js.toUpperCase (withoutSpaces name)
  ∧ (String.length name ≤ String.length (tokenNameToKeyword name))%nat.
Proof.
  intros _ Hskip. unfold tokenNameToKeyword.
  rewrite (not_skipped_not_operator name Hskip). split.
  - by rewrite withoutSpaces_toUpperCase, withoutSpaces_splitCamel.
  - rewrite length_toUpperCase. apply length_splitCamel.
Qed.

Lemma keyword_keeps_the_letters_witness :
  withoutSpaces (tokenNameToKeyword "SampleBy") = Js.toUpperCase (withoutSpaces "SampleBy")
  ∧ (String.length "SampleBy" ≤ String.length (tokenNameToKeyword "SampleBy"))%nat.
Proof.
  apply (keyword_keeps_the_letters "SampleBy"); vm_compute; reflexivity.
Defined.

(** X5: for a non-empty name without spaces the keyword text is one or
    more non-empty words with single spaces between them: no space at
    either end, no two spaces in a row, and never the empty text. *)
Theorem keyword_is_spaced_words (name : string) :
  plainName name = true → name ≠ "" → hasSpace name = false →
  wordsFrom false (tokenNameToKeyword name) = true.
Proof.
  intros _ Hne Hspace. unfold tokenNameToKeyword.
  destruct (OPERATOR_MAP !! name) as [symbol |] eqn:Hop.
  - apply (operator_symbol_shape name symbol Hop).
  - by apply wordsFrom_camel.
Qed.

Lemma keyword_is_spaced_words_witness :
  wordsFrom false (tokenNameToKeyword "LessThanOrEqual") = true
  ∧ wordsFrom false (tokenNameToKeyword "AlterTableAddColumn") = true.
Proof.
  split; apply keyword_is_spaced_words;
    first [discriminate | vm_compute; reflexivity].
Defined.

(** X6: two tokens that are not skipped and have no space in their names
    share a keyword text only if their names are equal up to letter
    case. *)
Theorem shared_keyword_text_same_letters (a b : string) :
  plainName a = true → plainName b = true →
  shouldSkipToken a = false → shouldSkipToken b = false →
  hasSpace a = false → hasSpace b = false →
  tokenNameToKeyword a = tokenNameToKeyword b →
  Js.toUpperCase a = Js.toUpperCase b.
Proof.
  intros _ _ Ha Hb Hsa Hsb Heq.
  apply (f_equal withoutSpaces) in Heq. unfold tokenNameToKeyword in Heq.
  rewrite (not_skipped_not_operator a Ha), (not_skipped_not_operator b Hb) in Heq.
  rewrite !withoutSpaces_toUpperCase, !withoutSpaces_splitCamel in Heq.
  by rewrite (withoutSpaces_no_space a Hsa), (withoutSpaces_no_space b Hsb) in Heq.
Qed.

Lemma shared_keyword_text_same_letters_witness :
  Js.toUpperCase "Current" = Js.toUpperCase "CURRENT".
Proof.
  apply (shared_keyword_text_same_letters "Current" "CURRENT");
    vm_compute; reflexivity.
Defined.

Lemma OPERATOR_MAP_injective (a b symbol : string) :
  OPERATOR_MAP !! a = Some symbol → OPERATOR_MAP !! b = Some symbol → a = b.
Proof.
  intros Ha Hb. unfold OPERATOR_MAP in Ha, Hb.
  apply elem_of_list_to_map_2 in Ha, Hb.
  repeat (apply elem_of_cons in Ha as [[= -> ->] | Ha]);
    [.. | by apply elem_of_nil in Ha];
    repeat (apply elem_of_cons in Hb as [Hb | Hb]; [by simplify_eq |]);
    by apply elem_of_nil in Hb.
Qed.

(** X7: [tokenNameToKeyword] gives a token name of [OPERATOR_MAP] its
    symbol, and no two such names get the same text: the table is
    injective. *)
Theorem operator_symbols_distinct (a b symbolA symbolB : string) :
  OPERATOR_MAP !! a = Some symbolA → OPERATOR_MAP !! b = Some symbolB →
  tokenNameToKeyword a = symbolA ∧ tokenNameToKeyword b = symbolB
  ∧ (tokenNameToKeyword a = tokenNameToKeyword b → a = b).
Proof.
  intros Ha Hb. unfold tokenNameToKeyword. rewrite Ha, Hb.
  split; [reflexivity | split; [reflexivity |]].
  intros ->. exact (OPERATOR_MAP_injective a b symbolB Ha Hb).
Qed.

End KeywordTextProperties.

Lemma operator_symbols_distinct_witness :
  OPERATOR_MAP !! "LessThan" = Some "<"
  ∧ OPERATOR_MAP !! "LessThanOrEqual" = Some "<="
  ∧ tokenNameToKeyword "LessThan" = "<"
  ∧ tokenNameToKeyword "LessThanOrEqual" = "<="
  ∧ (tokenNameToKeyword "LessThan" = tokenNameToKeyword "LessThanOrEqual" →
     "LessThan" = "LessThanOrEqual").
Proof.
  assert (Ha : OPERATOR_MAP !! "LessThan" = Some "<") by (vm_compute; reflexivity).
  assert (Hb : OPERATOR_MAP !! "LessThanOrEqual" = Some "<=")
    by (vm_compute; reflexivity).
  split; [exact Ha | split; [exact Hb |]].
  exact (operator_symbols_distinct "LessThan" "LessThanOrEqual" "<" "<=" Ha Hb).
Defined.

(** ** The classification sets *)

Section ClassificationSets.

Lemma identifier_tokens_not_skipped : IDENTIFIER_TOKENS ## SKIP_TOKENS.
Proof. apply (bool_decide_unpack _). vm_compute. exact I. Qed.

(** X8: the identifier tokens, the always-suggested keywords, the
    expression operators and the skip tokens are pairwise disjoint: no
    token name falls into two of the four classes. *)
Theorem classification_sets_disjoint :
  IDENTIFIER_TOKENS ## ALWAYS_SUGGEST_KEYWORDS
  ∧ IDENTIFIER_TOKENS ## EXPRESSION_OPERATORS
  ∧ IDENTIFIER_TOKENS ## SKIP_TOKENS
  ∧ ALWAYS_SUGGEST_KEYWORDS ## EXPRESSION_OPERATORS
  ∧ ALWAYS_SUGGEST_KEYWORDS ## SKIP_TOKENS
  ∧ EXPRESSION_OPERATORS ## SKIP_TOKENS.
Proof. repeat split; apply (bool_decide_unpack _); vm_compute; exact I. Qed.

Lemma isIdentifierToken_spec (keywords : gset string) (name : string) :
  isIdentifierToken keywords name = true ↔
  name ∈ IDENTIFIER_TOKENS ∨ name ∈ keywords.
Proof.
  unfold isIdentifierToken, IDENTIFIER_KEYWORD_TOKENS.
  rewrite orb_true_iff, !bool_decide_eq_true. reflexivity.
Qed.

(** X9: [isIdentifierToken] and [shouldSkipToken] never both hold of a
    token name exactly when the imported [IDENTIFIER_KEYWORD_NAMES] has no
    name of [SKIP_TOKENS] in it. *)
Theorem identifier_and_skip_exclusive (keywords : gset string) :
  (∀ name, ¬ (isIdentifierToken keywords name = true
              ∧ shouldSkipToken name = true))
  ↔ keywords ## SKIP_TOKENS.
Proof.
  split.
  - intros Hexcl name Hkw Hskip. apply (Hexcl name). split.
    + apply isIdentifierToken_spec. by right.
    + by apply shouldSkipToken_spec.
  - intros Hdisj name [[Hid | Hkw]%isIdentifierToken_spec Hskip%shouldSkipToken_spec].
    + exact (identifier_tokens_not_skipped name Hid Hskip).
    + exact (Hdisj name Hkw Hskip).
Qed.

(** X10: of the six punctuation tokens, LParen, RParen, Comma and
    Semicolon have a symbol in [OPERATOR_MAP] and their keyword text is
    that symbol, one character long; LBracket and RBracket have none,
    and their keyword text is the upper-cased name. *)
Theorem punctuation_keyword_text (name : string) :
  name ∈ PUNCTUATION_TOKENS →
  if bool_decide (name ∈ ["LBracket"; "RBracket"])
  then OPERATOR_MAP !! name = None
       ∧ tokenNameToKeyword name = Js.toUpperCase name
  else OPERATOR_MAP !! name = Some (tokenNameToKeyword name)
       ∧ String.length (tokenNameToKeyword name) = 1%nat.
Proof.
  intros Hin%elem_of_PUNCTUATION_TOKENS.
  repeat (apply elem_of_cons in Hin as [-> | Hin];
          [vm_compute; split; reflexivity |]).
  by apply elem_of_nil in Hin.
Qed.

End ClassificationSets.

Lemma punctuation_keyword_text_witness :
  (OPERATOR_MAP !! "LBracket" = None
   ∧ tokenNameToKeyword "LBracket" = Js.toUpperCase "LBracket")
  ∧ (OPERATOR_MAP !! "Semicolon" = Some (tokenNameToKeyword "Semicolon")
     ∧ String.length (tokenNameToKeyword "Semicolon") = 1%nat).
Proof.
  assert (Hbracket : "LBracket" ∈ PUNCTUATION_TOKENS)
    by (apply elem_of_PUNCTUATION_TOKENS; set_solver).
  assert (Hsemicolon : "Semicolon" ∈ PUNCTUATION_TOKENS)
    by (apply elem_of_PUNCTUATION_TOKENS; set_solver).
  split.
  - exact (punctuation_keyword_text "LBracket" Hbracket).
  - exact (punctuation_keyword_text "Semicolon" Hsemicolon).
Defined.

Example keyword_text_of_brackets :
  tokenNameToKeyword "LBracket" = "LBRACKET"
  ∧ tokenNameToKeyword "RBracket" = "RBRACKET".
Proof. split; vm_compute; reflexivity. Qed.

Example keyword_text_of_punctuation :
  tokenNameToKeyword <$> ["LParen"; "RParen"; "Comma"; "Semicolon"]
  = ["("; ")"; ","; ";"].
Proof. vm_compute. reflexivity. Qed.

Example suggest_after_values_comma :
  Autocomplete.suggest ∅ afterValuesComma "VALUES (1), " 12%nat emptyCatalog = [].
Proof. vm_compute. reflexivity. Qed.

Example keyword_text_of_empty_name : tokenNameToKeyword "" = "".
Proof. vm_compute. reflexivity. Qed.
